(** * aws_signing_client: the signing round tripper of [client.go]

    A shallow embedding of [client.go] (package [aws_signing_client]):
    the constructor [New] and the method [Signer.RoundTrip], together with
    the small part of the Go libraries they call ([strings.HasPrefix],
    [strings.Contains], [bytes.Reader], [ioutil.ReadAll], [http.Header.Set],
    [rest.EscapePath]).

    The collaborators whose behaviour the package does not fix (the clock,
    the v4 signer, the transports that are not a [Signer]) are variables of
    the sections below; every call to one of them is recorded in a trace. *)

From Stdlib Require Import ZArith Ascii String List.
From Stdlib.Strings Require Import Byte.
From stdpp Require Import base option gmap strings list fin_maps.

Local Open Scope string_scope.
Local Open Scope Z_scope.

(** ** Go library functions on strings *)

Module strings.

(** [strings.HasPrefix(s, prefix)]. *)
Definition HasPrefix (s pre : string) : bool := String.prefix pre s.

(** [strings.Contains(s, substr)]: [substr] occurs at some offset of [s]. *)
Fixpoint Contains (s substr : string) {struct s} : bool :=
  String.prefix substr s
  || match s with
     | EmptyString => false
     | String _ s' => Contains s' substr
     end.

(** Number of bytes of [s] equal to [c]. *)
Fixpoint CountByte (s : string) (c : ascii) : nat :=
  match s with
  | EmptyString => 0%nat
  | String d s' => ((if Ascii.eqb d c then 1 else 0) + CountByte s' c)%nat
  end.

End strings.

(** ** [rest.EscapePath] of aws-sdk-go ([private/protocol/rest/build.go])

    The package imports this function; its body is

<<
    noEscape[i] = (i >= 'A' && i <= 'Z') || (i >= 'a' && i <= 'z') ||
                  (i >= '0' && i <= '9') || i == '-' || i == '.' ||
                  i == '_' || i == '~'

    func EscapePath(path string, encodeSep bool) string {
        var buf bytes.Buffer
        for i := 0; i < len(path); i++ {
            c := path[i]
            if noEscape[c] || (c == '/' && !encodeSep) {
                buf.WriteByte(c)
            } else {
                fmt.Fprintf(&buf, "%%%02X", c)
            }
        }
        return buf.String()
    }
>>
*)

Module rest.

Definition noEscape (c : ascii) : bool :=
  let i := N_of_ascii c in
  ((65 <=? i) && (i <=? 90) || (97 <=? i) && (i <=? 122)
   || (48 <=? i) && (i <=? 57)
   || (i =? 45) || (i =? 46) || (i =? 95) || (i =? 126))%N.

(** One upper-case hexadecimal digit, as [%X] prints it. *)
Definition hexDigit (n : N) : ascii :=
  (if n <? 10 then ascii_of_N (48 + n) else ascii_of_N (55 + n))%N.

(** [fmt.Sprintf("%%%02X", c)]. *)
Definition percent02X (c : ascii) : string :=
  String "%" (String (hexDigit (N_of_ascii c / 16))
             (String (hexDigit (N_of_ascii c mod 16)) EmptyString)).

(** The bytes the loop body writes for the byte [c]. *)
Definition escapeByte (c : ascii) (encodeSep : bool) : string :=
  if noEscape c || (Ascii.eqb c "/" && negb encodeSep)
  then String c EmptyString
  else percent02X c.

Fixpoint EscapePath (path : string) (encodeSep : bool) : string :=
  match path with
  | EmptyString => EmptyString
  | String c rest => escapeByte c encodeSep ++ EscapePath rest encodeSep
  end.

End rest.

(** ** The request, as much of [net/http] as the package touches *)

(** Go [error] values: the three of this package and the errors that come
    out of a collaborator (body reader, signer, transport). *)
Inductive error : Type :=
| MissingSignerError
| MissingServiceError
| MissingRegionError
| ForeignError (msg : string).

(** [err.Error()]: the messages of the three error types of the package,
    and the message a foreign error carries. *)
Definition Error (err : error) : string :=
  match err with
  | MissingSignerError => "No signer was provided. Cannot create client."
  | MissingServiceError =>
      "No AWS service abbreviation was provided. Cannot create client."
  | MissingRegionError => "No AWS region was provided. Cannot create client."
  | ForeignError msg => msg
  end.

(** [url.URL]: the fields [RoundTrip] writes, and the ones around them. *)
Module url.

Record URL : Type := mkURL {
  Scheme : string;
  Host : string;
  Path : string;
  RawPath : string;
  RawQuery : string
}.

Definition setScheme (u : URL) (v : string) : URL :=
  {| Scheme := v; Host := Host u; Path := Path u;
     RawPath := RawPath u; RawQuery := RawQuery u |}.

Definition setRawPath (u : URL) (v : string) : URL :=
  {| Scheme := Scheme u; Host := Host u; Path := Path u;
     RawPath := v; RawQuery := RawQuery u |}.

End url.

(** The normalisation of lines 100-104 of [client.go]:
<<
    req.URL.Scheme = "https"
    if strings.Contains(req.URL.RawPath, "%2C") {
        req.URL.RawPath = rest.EscapePath(req.URL.RawPath, false)
    }
>>
*)
Definition normalizeURL (u : url.URL) : url.URL :=
  let u1 := url.setScheme u "https" in
  if strings.Contains (url.RawPath u1) "%2C"
  then url.setRawPath u1 (rest.EscapePath (url.RawPath u1) false)
  else u1.


(** ** Readers *)

Module bytes.

(** [bytes.Reader]: the slice [s] and the read offset [i]. *)
Record Reader : Type := mkReader { s : list byte; i : nat }.

(** [bytes.NewReader(b)]. *)
Definition NewReader (b : list byte) : Reader := {| s := b; i := 0 |}.

(** Reading a [bytes.Reader] to the end: the bytes from the offset on,
    and the reader with its offset at the end of the slice. *)
Definition readToEnd (r : Reader) : list byte * Reader :=
  (drop (i r) (s r), {| s := s r; i := Nat.max (i r) (length (s r)) |}).

End bytes.

(** An [io.ReadCloser], as a request body. [NopCloser r] is
    [ioutil.NopCloser(r)] for a [*bytes.Reader]: it exposes [Read] and a
    [Close] that does nothing, and no [Seek]. [Stream unread failure] is a
    body the caller supplied: it delivers [unread] and then ends, with
    [io.EOF] ([failure = None]) or with the error [failure]. *)
Inductive ReadCloser : Type :=
| NopCloser (r : bytes.Reader)
| Stream (unread : list byte) (failure : option error).

(** [ioutil.ReadAll(r)]: the data read until [io.EOF] or an error, the error
    (none at [io.EOF]), and the reader as the call leaves it. *)
Definition ReadAll (r : ReadCloser) : list byte * option error * ReadCloser :=
  match r with
  | NopCloser br =>
      let '(d, br') := bytes.readToEnd br in (d, None, NopCloser br')
  | Stream unread failure => (unread, failure, Stream [] failure)
  end.

(** ** Requests and responses *)

Module http.

(** [http.Header], a [map[string][]string]. *)
Abbreviation Header := (gmap string (list string)).

(** [h.Set(key, value)], for a key that is in canonical form already
    ("Date" is): [h[key] = []string{value}]. *)
Definition Header_Set (h : Header) (key value : string) : Header :=
  <[key := [value]]> h.

End http.

(** [http.Request]. [URL] and [Header] are initialised, as the
    [http.RoundTripper] contract requires; [Body] is [None] for a nil body.
    The request's context is only handed to the logger and is left out. *)
Record Request : Type := mkRequest {
  Method : string;
  URL : url.URL;
  Header : http.Header;
  Body : option ReadCloser
}.

Definition setURL (r : Request) (u : url.URL) : Request :=
  {| Method := Method r; URL := u; Header := Header r; Body := Body r |}.

Definition setHeader (r : Request) (h : http.Header) : Request :=
  {| Method := Method r; URL := URL r; Header := h; Body := Body r |}.

Definition setBody (r : Request) (b : option ReadCloser) : Request :=
  {| Method := Method r; URL := URL r; Header := Header r; Body := b |}.

Record Response : Type := mkResponse {
  StatusCode : Z;
  ResponseBody : list byte
}.

(** ** Time *)

(** A [time.Time], as nanoseconds since the epoch. *)
Abbreviation Time := Z (only parsing).

Module time.

Definition Millisecond : Z := 1000000.

Definition minDuration : Z := - 2 ^ 63.
Definition maxDuration : Z := 2 ^ 63 - 1.

(** [t.Sub(u)]: the duration [t - u], saturated to the range of an
    [int64] of nanoseconds. *)
Definition Sub (t u : Time) : Z :=
  Z.max minDuration (Z.min maxDuration (t - u)).

End time.

(** [int64(end.Sub(start) / time.Millisecond)]; Go's [/] truncates. *)
Definition latencyMs (start fin : Time) : Z :=
  Z.quot (time.Sub fin start) time.Millisecond.

(** ** The types of [client.go] *)

(** A non-nil [*v4.Signer], by its identity. *)
Abbreviation V4Signer := positive (only parsing).

(** [ContextLogger]: the [DefaultLogger] that [New] builds over
    [ioutil.Discard], or an implementation of the caller. *)
Inductive ContextLogger : Type :=
| DefaultLogger
| CallerLogger (id : positive).

(** [http.RoundTripper] values: [http.DefaultTransport], a [*Signer] of this
    package, or any other implementation. [Signer] is the struct of
    [client.go]; [New], its only constructor, never leaves [transport] or
    [v4] nil. *)
Inductive RoundTripper : Type :=
| DefaultTransport
| OtherTransport (id : positive)
| SignerTransport (sg : Signer)
with Signer : Type :=
| mkSigner (transport : RoundTripper) (v4 : V4Signer)
           (service region : string) (logger : ContextLogger).

Definition transport (sg : Signer) : RoundTripper :=
  match sg with mkSigner t _ _ _ _ => t end.
Definition v4 (sg : Signer) : V4Signer :=
  match sg with mkSigner _ v _ _ _ => v end.
Definition service (sg : Signer) : string :=
  match sg with mkSigner _ _ sv _ _ => sv end.
Definition region (sg : Signer) : string :=
  match sg with mkSigner _ _ _ rg _ => rg end.
Definition logger (sg : Signer) : ContextLogger :=
  match sg with mkSigner _ _ _ _ l => l end.

(** ** Calls to collaborators, in the order they happen *)

(** An argument of a [Printf] call. *)
Inductive LogArg : Type :=
| ArgString (v : string)
| ArgInt (v : Z)
| ArgError (v : error)
| ArgRequest (v : Request).

Inductive Event : Type :=
| EvPrintf (l : ContextLogger) (format : string) (args : list LogArg)
| EvNow (t : Time)
| EvReadAll (b : ReadCloser) (d : list byte) (err : option error)
| EvSign (v : V4Signer) (r : Request) (body : option bytes.Reader)
         (sv rg : string) (signTime : Time) (err : option error)
| EvRoundTrip (rt : RoundTripper) (r : Request)
              (resp : option Response) (err : option error).

(** The request every [Sign] call of a trace was made with, its body
    argument and its time argument. *)
Fixpoint signCalls (tr : list Event)
  : list (Request * option bytes.Reader * Time) :=
  match tr with
  | [] => []
  | EvSign _ r body _ _ t _ :: tr' => (r, body, t) :: signCalls tr'
  | _ :: tr' => signCalls tr'
  end.

(** The requests a trace handed to a transport. *)
Fixpoint forwarded (tr : list Event) : list Request :=
  match tr with
  | [] => []
  | EvRoundTrip _ r _ _ :: tr' => r :: forwarded tr'
  | _ :: tr' => forwarded tr'
  end.

(** ** [Signer.RoundTrip] *)

Section RoundTrip.

(** The state outside the program: clock, credentials, network. *)
Context {World : Type}.

(** [time.Now()]. *)
Variable time_Now : World -> Time * World.
(** [t.Format(time.RFC3339)]. *)
Variable Format_RFC3339 : Time -> string.
(** [v.Sign(req, body, service, region, signTime)]: the error it returns
    (the headers it returns are dropped by [RoundTrip]), and the request
    as it leaves it. *)
Variable v4_Sign :
  V4Signer -> Request -> option bytes.Reader -> string -> string -> Time ->
  World -> option error * Request * World.
(** [rt.RoundTrip(req)] of the transport [rt]. *)
Variable transport_RoundTrip :
  RoundTripper -> Request -> World ->
  option Response * option error * Request * World.

(** What a run has in hand: the request [req] points to, the world, and
    the calls made so far. *)
Record State : Type := mkState {
  req : Request;
  world : World;
  trace : list Event
}.

Definition M (A : Type) : Type := State -> A * State.

#[global] Instance M_ret : MRet M := fun A a st => (a, st).
#[global] Instance M_bind : MBind M :=
  fun A B k m st => let '(a, st') := m st in k a st'.

Definition getReq : M Request := fun st => (req st, st).
Definition putReq (r : Request) : M unit :=
  fun st => (tt, {| req := r; world := world st; trace := trace st |}).
Definition emit (e : Event) : M unit :=
  fun st => (tt, {| req := req st; world := world st;
                    trace := trace st ++ [e] |}).

Definition Now : M Time :=
  fun st =>
    let '(t, w) := time_Now (world st) in
    (t, {| req := req st; world := w; trace := trace st ++ [EvNow t] |}).

(** [s.logger.Printf(ctx, format, args...)]. The call is recorded; a logger
    is taken to leave the request and the world as they are. *)
Definition Printf (sg : Signer) (format : string) (args : list LogArg)
  : M unit :=
  emit (EvPrintf (logger sg) format args).

(** [ioutil.ReadAll(req.Body)] on the body [b] of the request. *)
Definition readBody (b : ReadCloser) : M (list byte * option error) :=
  fun st =>
    let '(d, err, b') := ReadAll b in
    ((d, err), {| req := setBody (req st) (Some b'); world := world st;
                  trace := trace st ++ [EvReadAll b d err] |}).

(** [s.v4.Sign(req, body, s.service, s.region, t)]. *)
Definition Sign (sg : Signer) (body : option bytes.Reader) (t : Time)
  : M (option error) :=
  fun st =>
    let '(err, r', w') :=
      v4_Sign (v4 sg) (req st) body (service sg) (region sg) t (world st) in
    (err, {| req := r'; world := w';
             trace := trace st
                      ++ [EvSign (v4 sg) (req st) body (service sg)
                                 (region sg) t err] |}).

(** [s.transport.RoundTrip(req)]. *)
Definition forward (sg : Signer) : M (option Response * option error) :=
  fun st =>
    let '(resp, err, r', w') :=
      transport_RoundTrip (transport sg) (req st) (world st) in
    ((resp, err),
     {| req := r'; world := w';
        trace := trace st ++ [EvRoundTrip (transport sg) (req st) resp err] |}).

(** The test of line 95:
    [h, ok := req.Header["Authorization"];
     ok && len(h) > 0 && strings.HasPrefix(h[0], "AWS4")]. *)
Definition alreadySigned (r : Request) : bool :=
  match Header r !! "Authorization" with
  | Some (h0 :: _) => strings.HasPrefix h0 "AWS4"
  | _ => false
  end.

(** How the [switch req.Body] of lines 111-128 ends: the function has
    returned (line 121), or control reaches line 130 with the variables
    [err] and [latency] of lines 109-110. *)
Inductive Switch : Type :=
| Returned (resp : option Response) (err : option error)
| FellThrough (err : option error) (latency : Z).

(** The method [RoundTrip] of [*Signer], lines 93-147.

    In the [default] clause, [d, err := ioutil.ReadAll(req.Body)] declares
    a new [err], local to the clause (a short variable declaration only
    reuses variables of the same block). The assignment
    [_, err = s.v4.Sign(...)] of line 126 is in the scope of that
    declaration and writes the clause's [err]; the [err] of line 110, which
    line 130 tests, is still nil when this clause ends. *)
Definition RoundTrip (sg : Signer) : M (option Response * option error) :=
  r0 ← getReq;
  if alreadySigned r0 then
    Printf sg "Received request to sign that is already signed. Skipping." [];;
    forward sg
  else
    putReq (setURL r0 (url.setScheme (URL r0) "https"));;
    r1 ← getReq;
    (if strings.Contains (url.RawPath (URL r1)) "%2C" then
       Printf sg "Escaping path for URL path '%s'"
              [ArgString (url.RawPath (URL r1))];;
       putReq (setURL r1 (url.setRawPath (URL r1)
                 (rest.EscapePath (url.RawPath (URL r1)) false)))
     else mret tt);;
    t ← Now;
    r2 ← getReq;
    putReq (setHeader r2
              (http.Header_Set (Header r2) "Date" (Format_RFC3339 t)));;
    r3 ← getReq;
    Printf sg "Request to be signed: %+v" [ArgRequest r3];;
    sw ← match Body r3 with
         | None =>
             Printf sg "Signing request with no body..." [];;
             start ← Now;
             err ← Sign sg None t;
             fin ← Now;
             mret (FellThrough err (latencyMs start fin))
         | Some b =>
             '(d, err1) ← readBody b;
             match err1 with
             | Some e =>
                 Printf sg "Error while attempting to read request body: '%s'"
                        [ArgError e];;
                 mret (Returned None (Some e))
             | None =>
                 r4 ← getReq;
                 putReq (setBody r4 (Some (NopCloser (bytes.NewReader d))));;
                 Printf sg "Signing request with body..." [];;
                 start ← Now;
                 err1' ← Sign sg (Some (bytes.NewReader d)) t;
                 fin ← Now;
                 mret (FellThrough None (latencyMs start fin))
             end
         end;
    match sw with
    | Returned resp err => mret (resp, err)
    | FellThrough (Some e) _ =>
        Printf sg "Error while attempting to sign request: '%s'" [ArgError e];;
        mret (None, Some e)
    | FellThrough None latency =>
        Printf sg "Signing succesful. Latency: %d ms" [ArgInt latency];;
        start ← Now;
        '(resp, err) ← forward sg;
        fin ← Now;
        match err with
        | Some e =>
            Printf sg "Error from RoundTripper. Latency: %d ms, Error: %s"
                   [ArgInt (latencyMs start fin); ArgError e];;
            mret (resp, Some e)
        | None =>
            Printf sg "Successful response from RoundTripper. Latency: %d ms"
                   [ArgInt (latencyMs start fin)];;
            mret (resp, None)
        end
    end.

(** The request as lines 100-106 leave it, when [t] is the time read at
    line 105: URL normalised and [Date] header set. *)
Definition prepared (r : Request) (t : Time) : Request :=
  setHeader (setURL r (normalizeURL (URL r)))
            (http.Header_Set (Header r) "Date" (Format_RFC3339 t)).

(** A call [s.RoundTrip(req)] in the world [w]. *)
Definition run (sg : Signer) (r : Request) (w : World)
  : option Response * option error * State :=
  RoundTrip sg {| req := r; world := w; trace := [] |}.

End RoundTrip.

(** [rt.RoundTrip(req)] by the dynamic type of [rt]: a [*Signer] runs
    [Signer.RoundTrip] with this same dispatch for its inner transport; any
    other transport is the collaborator [net]. The calls an inner [Signer]
    makes are not part of the outer trace. *)
Fixpoint RoundTripper_RoundTrip {World : Type}
    (time_Now : World -> Time * World) (Format_RFC3339 : Time -> string)
    (v4_Sign : V4Signer -> Request -> option bytes.Reader -> string ->
               string -> Time -> World -> option error * Request * World)
    (net : RoundTripper -> Request -> World ->
           option Response * option error * Request * World)
    (rt : RoundTripper) (r : Request) (w : World) {struct rt}
  : option Response * option error * Request * World :=
  match rt with
  | SignerTransport sg =>
      let '(res, st) :=
        run time_Now Format_RFC3339 v4_Sign
            (RoundTripper_RoundTrip time_Now Format_RFC3339 v4_Sign net)
            sg r w in
      (res, req st, world st)
  | _ => net rt r w
  end.

(** ** [New] *)

(** [http.Client]: its [Transport] field, [None] for a nil interface. *)
Record Client : Type := mkClient { Transport : option RoundTripper }.

#[global] Instance Client_inhabited : Inhabited Client :=
  populate {| Transport := None |}.

(** The [http.Client] objects of the process, by address. An address that
    is not in the map holds the zero value [http.Client{}]. *)
Abbreviation Heap := (gmap positive Client).

(** [http.DefaultClient], the address of the client of the process. *)
Definition DefaultClient : positive := 1%positive.

(** [func (c *Client) transport() RoundTripper] of [net/http]: the transport
    every request sent through the client goes to. *)
Definition Client_transport (c : Client) : RoundTripper :=
  match Transport c with
  | Some rt => rt
  | None => DefaultTransport
  end.

(** [New(v4s, client, service, region, cl)] on the heap [h]. A nil
    pointer or interface argument is [None]. *)
Definition New (v4s : option V4Signer) (client : option positive)
    (service region : string) (cl : option ContextLogger) (h : Heap)
  : option positive * option error * Heap :=
  match v4s with
  | None => (None, Some MissingSignerError, h)
  | Some v =>
      if String.eqb service EmptyString then (None, Some MissingServiceError, h)
      else if String.eqb region EmptyString
      then (None, Some MissingRegionError, h)
      else
        let c := match client with
                 | None => DefaultClient
                 | Some p => p
                 end in
        let cl := match cl with
                  | None => DefaultLogger
                  | Some l => l
                  end in
        let tr := match Transport (h !!! c) with
                  | None => DefaultTransport
                  | Some t => t
                  end in
        let s := mkSigner tr v service region cl in
        (Some c, None, <[c := {| Transport := Some (SignerTransport s) |}]> h)
  end.

(** ** Test doubles

    A clock that advances 2.5 ms per reading, signers that succeed or fail,
    and a transport that answers 200; the world is the number of clock
    readings so far. *)
Module Stub.

Definition time_Now (w : nat) : Time * nat :=
  (1700000000000000000 + Z.of_nat w * 2500000, S w).

Definition Format_RFC3339 (t : Time) : string :=
  if Z.eqb t 1700000000000000000 then "2023-11-14T22:13:20Z"
  else "2023-11-14T22:13:21Z".

(** A signer that sets the [Authorization] header. *)
Definition signOK (v : V4Signer) (r : Request) (b : option bytes.Reader)
    (sv rg : string) (t : Time) (w : nat) : option error * Request * nat :=
  (None,
   setHeader r (http.Header_Set (Header r) "Authorization"
                  "AWS4-HMAC-SHA256 Credential=AKIDEXAMPLE"),
   w).

Definition signError : error := ForeignError "NoCredentialProviders".

(** A signer that fails and leaves the request alone. *)
Definition signFail (v : V4Signer) (r : Request) (b : option bytes.Reader)
    (sv rg : string) (t : Time) (w : nat) : option error * Request * nat :=
  (Some signError, r, w).

Definition ok200 : Response := {| StatusCode := 200; ResponseBody := [] |}.

(** A transport that answers 200 and leaves the request alone. *)
Definition echo (rt : RoundTripper) (r : Request) (w : nat)
  : option Response * option error * Request * nat :=
  (Some ok200, None, r, w).

Definition signer : Signer :=
  mkSigner DefaultTransport 7 "es" "us-east-1" DefaultLogger.

Definition exampleURL : url.URL :=
  {| url.Scheme := "http"; url.Host := "example.com"; url.Path := "/,foo";
     url.RawPath := "/%2Cfoo"; url.RawQuery := EmptyString |}.

(** A GET without a body. *)
Definition get : Request :=
  {| Method := "GET"; URL := exampleURL; Header := ∅; Body := None |}.

(** A POST with the body "hi". *)
Definition post : Request :=
  {| Method := "POST"; URL := exampleURL; Header := ∅;
     Body := Some (Stream ["h"; "i"]%byte None) |}.

Definition readError : error := ForeignError "unexpected EOF".

(** A POST whose body delivers "h" and then fails. *)
Definition postBroken : Request :=
  {| Method := "POST"; URL := exampleURL; Header := ∅;
     Body := Some (Stream ["h"]%byte (Some readError)) |}.

(** A request that carries a signature already, over plain http. *)
Definition presigned : Request :=
  {| Method := "POST"; URL := exampleURL;
     Header := {[ "Authorization" := ["AWS4-HMAC-SHA256 Credential=OLD"] ]};
     Body := Some (Stream ["h"; "i"]%byte None) |}.

(** [RoundTrip] of [signer] with the signer that succeeds, and with the
    signer that fails. *)
Definition runOK (r : Request) (w : nat)
  : option Response * option error * State :=
  run time_Now Format_RFC3339 signOK echo signer r w.

Definition runFail (r : Request) (w : nat)
  : option Response * option error * State :=
  run time_Now Format_RFC3339 signFail echo signer r w.

(** A URL whose raw path has an escaped and a literal comma. *)
Definition twoCommas : url.URL :=
  {| url.Scheme := "http"; url.Host := "example.com"; url.Path := "/a,b,c";
     url.RawPath := "/a%2Cb,c"; url.RawQuery := EmptyString |}.

End Stub.

(** ** More views of a trace and of a transport *)

(** The body reads of a trace: the reader, the data and the error. *)
Fixpoint bodyReads (tr : list Event)
  : list (ReadCloser * list byte * option error) :=
  match tr with
  | [] => []
  | EvReadAll b d err :: tr' => (b, d, err) :: bodyReads tr'
  | _ :: tr' => bodyReads tr'
  end.

(** The transport at the bottom of a stack of [Signer]s: the first
    [transport] field, going inwards, that is not a [*Signer]. *)
Fixpoint innermost (rt : RoundTripper) : RoundTripper :=
  match rt with
  | SignerTransport sg => innermostOf sg
  | _ => rt
  end
with innermostOf (sg : Signer) : RoundTripper :=
  match sg with
  | mkSigner t _ _ _ _ => innermost t
  end.

(** The GET of the test doubles with its raw path escaped once more by the
    caller: /%252Cfoo in place of /%2Cfoo. *)
Definition getEscapedTwice : Request :=
  setURL Stub.get
    (url.setRawPath Stub.exampleURL
       (rest.EscapePath (url.RawPath Stub.exampleURL) false)).

(** The bytes of a Go string. *)
Definition bytesOf (p : string) : list ascii := list_ascii_of_string p.

(** The bytes [rest.EscapePath(p, false)] can produce: the ones it writes
    as they are, and the "%" of an escape. *)
Definition pathByte (c : ascii) : bool :=
  rest.noEscape c || Ascii.eqb c "/" || Ascii.eqb c "%".

(** * Properties *)

(** ** Facts about [EscapePath] *)

Section EscapePathFacts.

Import strings rest.

Lemma prefix_empty (p : string) : String.prefix EmptyString p = true.
Proof. by destruct p. Qed.

Lemma Contains_cons c p sub :
  Contains (String c p) sub = String.prefix sub (String c p) || Contains p sub.
Proof. reflexivity. Qed.

(** What one escaped byte contributes to a search for the text "%2C":
    only a comma produces it, and no chunk can start it half way. *)
Lemma Contains_escapeByte c p :
  Contains (escapeByte c false ++ p) "%2C"
  = Ascii.eqb c "," || Contains p "%2C".
Proof.
  destruct c as [[] [] [] [] [] [] [] []];
    try (vm_compute; reflexivity); destruct p; reflexivity.
Qed.

Lemma Contains_comma c p :
  Contains (String c p) "," = Ascii.eqb c "," || Contains p ",".
Proof.
  rewrite Contains_cons. f_equal. cbn [String.prefix].
  rewrite prefix_empty. destruct (ascii_dec "," c) as [<-|Hne]; [done|].
  symmetry. apply Ascii.eqb_neq. congruence.
Qed.

(** The escaped path contains "%2C" exactly when the path has a comma. *)
Lemma Contains_EscapePath p :
  Contains (EscapePath p false) "%2C" = Contains p ",".
Proof.
  induction p as [|c p IH]; [reflexivity|].
  cbn [EscapePath]. by rewrite Contains_escapeByte, Contains_comma, IH.
Qed.

Lemma Contains_CountByte_percent p sub :
  Contains p (String "%" sub) = true -> (0 < CountByte p "%")%nat.
Proof.
  induction p as [|c p IH]; [discriminate|].
  rewrite Contains_cons. cbn [String.prefix CountByte].
  destruct (Ascii.eqb c "%") eqn:E.
  - intros _. lia.
  - assert (c <> "%"%char) as Hc by (intros ->; rewrite Ascii.eqb_refl in E; done).
    destruct (ascii_dec "%" c) as [<-|_]; [done|].
    cbn [orb]. intros H%IH. lia.
Qed.

Lemma length_append (s1 s2 : string) :
  String.length (s1 ++ s2) = (String.length s1 + String.length s2)%nat.
Proof. induction s1 as [|c s1 IH]; simpl; [done | by f_equal]. Qed.

Lemma length_escapeByte c :
  String.length (escapeByte c false)
  = (if noEscape c || Ascii.eqb c "/" then 1 else 3)%nat.
Proof.
  unfold escapeByte. rewrite andb_true_r.
  destruct (noEscape c || Ascii.eqb c "/"); reflexivity.
Qed.

(** Every "%" of the path costs two more bytes. *)
Lemma length_EscapePath_ge p :
  (String.length p + 2 * CountByte p "%" <= String.length (EscapePath p false))%nat.
Proof.
  induction p as [|c p IH]; [done|].
  cbn [EscapePath CountByte String.length].
  rewrite length_append, length_escapeByte.
  destruct (Ascii.eqb c "%") eqn:E.
  - apply Ascii.eqb_eq in E as ->.
    change (noEscape "%" || Ascii.eqb "%" "/") with false.
    cbv iota. lia.
  - destruct (noEscape c || Ascii.eqb c "/"); lia.
Qed.

(** A path with an escape sequence in it is never a fixed point. *)
Lemma EscapePath_not_fixed p sub :
  Contains p (String "%" sub) = true -> EscapePath p false <> p.
Proof.
  intros H%Contains_CountByte_percent Heq.
  pose proof (length_EscapePath_ge p) as Hlen. rewrite Heq in Hlen. lia.
Qed.

End EscapePathFacts.

(** ** Normalising a URL twice *)

(** C8, as the specification states it, fails: the raw path [/a%2Cb,c] is
    escaped to [/a%252Cb%2Cc] by the first pass, which contains "%2C"
    again (from the literal comma), and to [/a%25252Cb%252Cc] by the
    second. *)
Lemma normalizeURL_twice_differs :
  url.RawPath (normalizeURL Stub.twoCommas) = "/a%252Cb%2Cc"
  /\ url.RawPath (normalizeURL (normalizeURL Stub.twoCommas))
     = "/a%25252Cb%252Cc"
  /\ normalizeURL (normalizeURL Stub.twoCommas) <> normalizeURL Stub.twoCommas
  /\ ~ (forall u : url.URL, normalizeURL (normalizeURL u) = normalizeURL u).
Proof.
  split; [reflexivity|]. split; [reflexivity|]. split; [discriminate|].
  intros H. specialize (H Stub.twoCommas). discriminate H.
Qed.

(** C8, amended: normalising twice gives the same URL as normalising once
    exactly for the URLs whose raw path does not contain both the text
    "%2C" and a literal comma; so it does for every raw path without a
    comma. *)
Theorem normalizeURL_idempotent_iff (u : url.URL) :
  normalizeURL (normalizeURL u) = normalizeURL u
  <-> strings.Contains (url.RawPath u) "%2C"
      && strings.Contains (url.RawPath u) "," = false.
Proof.
  unfold normalizeURL. cbn [url.setScheme url.RawPath].
  destruct (strings.Contains (url.RawPath u) "%2C") eqn:Hesc.
  - cbn [url.setRawPath url.setScheme url.RawPath url.Scheme andb].
    rewrite Contains_EscapePath.
    destruct (strings.Contains (url.RawPath u) ",") eqn:Hcomma.
    + split; [|discriminate]. intros Heq. exfalso.
      apply (f_equal url.RawPath) in Heq. cbn in Heq.
      apply (EscapePath_not_fixed _ "2C") in Heq; [done|].
      by rewrite Contains_EscapePath.
    + done.
  - cbn [url.setScheme url.RawPath andb]. by rewrite Hesc.
Qed.

(** ** What [RoundTrip] does *)

Section RoundTripFacts.

Context {World : Type}.
Variable time_Now : World -> Time * World.
Variable Format_RFC3339 : Time -> string.
Variable v4_Sign :
  V4Signer -> Request -> option bytes.Reader -> string -> string -> Time ->
  World -> option error * Request * World.
Variable transport_RoundTrip :
  RoundTripper -> Request -> World ->
  option Response * option error * Request * World.

Local Abbreviation call :=
  (run time_Now Format_RFC3339 v4_Sign transport_RoundTrip).
Local Abbreviation prepared' := (prepared Format_RFC3339).

(** Runs [RoundTrip] symbolically: one goal per path through it. *)
Ltac symex :=
  cbv [run RoundTrip Now Sign forward readBody Printf emit getReq putReq
       prepared normalizeURL mbind mret M_bind M_ret];
  repeat (first [ progress cbn [req world trace fst snd Body Header URL Method
                                setURL setHeader setBody app
                                signCalls forwarded]
                | case_match; simplify_eq ]).

(** Splits a membership in an explicit trace into its possible cases. *)
Ltac elem_cases H :=
  first [ apply elem_of_nil in H; destruct H
        | apply elem_of_cons in H as [H|H];
          [try discriminate H | elem_cases H] ].

(** Finds an event in an explicit trace. *)
Ltac elem_find :=
  apply list_elem_of_In; cbn [In];
  repeat (first [left; reflexivity | right]).

(** The [Sign] calls of a run. *)
Lemma signCalls_run sg r w :
  signCalls (trace (call sg r w).2)
  = if alreadySigned r then []
    else
      let t := (time_Now w).1 in
      match Body r with
      | None => [(prepared' r t, None, t)]
      | Some b =>
          match ReadAll b with
          | (d, None, _) =>
              [(setBody (prepared' r t) (Some (NopCloser (bytes.NewReader d))),
                Some (bytes.NewReader d), t)]
          | (_, Some _, _) => []
          end
      end.
Proof. symex; reflexivity. Qed.

(** The request the signer is given has the URL of the caller's request,
    normalised. *)
Lemma signed_request_url sg r w rq body t :
  (rq, body, t) ∈ signCalls (trace (call sg r w).2) ->
  URL rq = normalizeURL (URL r).
Proof.
  rewrite signCalls_run. intros Hin.
  repeat case_match; elem_cases Hin; by simplify_eq.
Qed.

(** C2. A request whose [Authorization] header is present and whose first
    value begins with "AWS4" goes to the inner transport as it is: the
    run consists of one log line and the call of the transport on the
    caller's request itself, so the scheme, the raw path and the headers
    are not written, the clock is not read and the signer is not called.
    The result and the request afterwards are the transport's. *)
Theorem alreadySigned_forwards_unchanged sg r w h0 hs :
  Header r !! "Authorization" = Some (h0 :: hs) ->
  strings.HasPrefix h0 "AWS4" = true ->
  call sg r w
  = (let '(resp, err, r', w') := transport_RoundTrip (transport sg) r w in
     (resp, err,
      {| req := r'; world := w';
         trace :=
           [EvPrintf (logger sg)
              "Received request to sign that is already signed. Skipping." [];
            EvRoundTrip (transport sg) r resp err] |}))
  /\ forwarded (trace (call sg r w).2) = [r]
  /\ signCalls (trace (call sg r w).2) = [].
Proof.
  intros Hauth Hpre.
  assert (alreadySigned r = true) as Hsigned
    by (unfold alreadySigned; by rewrite Hauth).
  rewrite signCalls_run, Hsigned. split; [|split]; [| |done].
  - symex; reflexivity.
  - symex; reflexivity.
Qed.

(** C3, amended. For every request that is not signed already, the scheme
    of the URL is https when [RoundTrip] returns, whatever scheme the
    caller set, when the signer and the transport leave the scheme of the
    request they are given alone. (A request that is signed already is
    forwarded as it is and keeps its scheme.) *)
Theorem unsigned_scheme_https sg r w :
  alreadySigned r = false ->
  (forall v rq b sv rg t w',
     url.Scheme (URL (v4_Sign v rq b sv rg t w').1.2) = url.Scheme (URL rq)) ->
  (forall rt rq w',
     url.Scheme (URL (transport_RoundTrip rt rq w').1.2)
     = url.Scheme (URL rq)) ->
  url.Scheme (URL (req (call sg r w).2)) = "https".
Proof.
  intros Hunsigned Hsign Htransport.
  symex;
    repeat match goal with
           | E : v4_Sign ?v ?rq ?b ?sv ?rg ?t ?w' = _ |- _ =>
               let H := fresh in
               pose proof (Hsign v rq b sv rg t w') as H;
               rewrite E in H; cbn in H; clear E
           | E : transport_RoundTrip ?rt ?rq ?w' = _ |- _ =>
               let H := fresh in
               pose proof (Htransport rt rq w') as H;
               rewrite E in H; cbn in H; clear E
           end;
    solve [reflexivity | congruence].
Qed.


(** C6. Every call of the signer in a run carries the body argument the
    request calls for: nil when the request has no body, and a fresh
    [bytes.Reader] over the bytes read from the body otherwise, which
    reads to the end as exactly those bytes. A request that is not signed
    already is signed exactly once, unless reading its body fails. *)
Theorem sign_body_argument sg r w :
  (forall rq body t,
     (rq, body, t) ∈ signCalls (trace (call sg r w).2) ->
     match Body r with
     | None => body = None
     | Some b =>
         exists rd, body = Some rd
           /\ rd = bytes.NewReader (ReadAll b).1.1
           /\ (bytes.readToEnd rd).1 = (ReadAll b).1.1
     end)
  /\ (alreadySigned r = false ->
      (forall b, Body r = Some b -> (ReadAll b).1.2 = None) ->
      length (signCalls (trace (call sg r w).2)) = 1%nat).
Proof.
  rewrite signCalls_run. split.
  - intros rq body t. destruct (alreadySigned r); [by intros ?%elem_of_nil|].
    destruct (Body r) as [b|]; cbn.
    + destruct (ReadAll b) as [[d [e|]] b']; [by intros ?%elem_of_nil|].
      intros [=]%list_elem_of_singleton; subst. eexists; split; [done|].
      split; [done|]. apply drop_0.
    + by intros [=]%list_elem_of_singleton.
  - intros -> Hok. destruct (Body r) as [b|]; cbn; [|done].
    specialize (Hok b eq_refl).
    destruct (ReadAll b) as [[d [e|]] b']; by simplify_eq/=.
Qed.

(** C7. When reading the body of the request fails with [e], [RoundTrip]
    returns a nil response and [e], and the run has no call of the signer
    and none of the transport. *)
Theorem read_error_aborts sg r w b d e :
  EvReadAll b d (Some e) ∈ trace (call sg r w).2 ->
  (call sg r w).1 = (None, Some e)
  /\ signCalls (trace (call sg r w).2) = []
  /\ forwarded (trace (call sg r w).2) = [].
Proof.
  symex; intros Hin; elem_cases Hin; by simplify_eq.
Qed.

(** The body of a request that is not signed already is read, and only
    then. *)
Lemma readAll_in_trace sg r w b d e b' :
  alreadySigned r = false ->
  Body r = Some b ->
  ReadAll b = (d, e, b') ->
  EvReadAll b d e ∈ trace (call sg r w).2.
Proof.
  intros Hunsigned Hbody Hread.
  symex; elem_find.
Qed.

(** C9. Every call of the signer in a run is made with the time [t] that
    line 105 read from the clock, on a request whose [Date] header is
    that same [t] in RFC 3339 format. *)
Theorem sign_time_is_date sg r w rq body t :
  (rq, body, t) ∈ signCalls (trace (call sg r w).2) ->
  t = (time_Now w).1
  /\ Header rq !! "Date" = Some [Format_RFC3339 t]
  /\ EvNow t ∈ trace (call sg r w).2.
Proof.
  intros Hin. split; [|split].
  - rewrite signCalls_run in Hin.
    repeat case_match; elem_cases Hin; by simplify_eq.
  - rewrite signCalls_run in Hin.
    repeat case_match; elem_cases Hin; simplify_eq; apply lookup_insert_eq.
  - revert Hin.
    symex; intros Hin; elem_cases Hin; simplify_eq; elem_find.
Qed.

(** Without a body, an error of the signer is returned and the request is
    not forwarded. *)
Lemma sign_error_no_body sg r w rq t e :
  Body r = None ->
  EvSign (v4 sg) rq None (service sg) (region sg) t (Some e)
    ∈ trace (call sg r w).2 ->
  (call sg r w).1 = (None, Some e) /\ forwarded (trace (call sg r w).2) = [].
Proof.
  intros Hbody.
  symex; intros Hin; elem_cases Hin; by simplify_eq.
Qed.

(** With a body, what the signer returns is not looked at: the function
    variable [err] is nil at line 130 whatever [Sign] returned, and the
    request goes to the transport. *)
Lemma sign_error_with_body_ignored sg r w b d b1 :
  alreadySigned r = false ->
  Body r = Some b ->
  ReadAll b = (d, None, b1) ->
  exists rq resp err,
    forwarded (trace (call sg r w).2) = [rq]
    /\ EvRoundTrip (transport sg) rq resp err ∈ trace (call sg r w).2
    /\ (call sg r w).1 = (resp, err).
Proof.
  intros Hunsigned Hbody Hread.
  symex; do 3 eexists; (split; [reflexivity|]); (split; [elem_find|]);
    reflexivity.
Qed.

(** ** More about [RoundTrip] *)

(** A request that is signed already: the whole run. *)
Lemma run_alreadySigned sg r w :
  alreadySigned r = true ->
  signCalls (trace (call sg r w).2) = []
  /\ forwarded (trace (call sg r w).2) = [r].
Proof. intros Hsigned. symex; split; reflexivity. Qed.

(** X1. Whenever [RoundTrip] calls a transport, the transport is the one
    the [Signer] wraps, and what [RoundTrip] returns is the response and
    the error of that call, both as they are (a response that comes with
    an error is returned too). *)
Theorem transport_result_verbatim sg r w rt rq resp err :
  EvRoundTrip rt rq resp err ∈ trace (call sg r w).2 ->
  rt = transport sg /\ (call sg r w).1 = (resp, err).
Proof.
  symex; intros Hin; elem_cases Hin; by simplify_eq.
Qed.

(** X2. One call of [RoundTrip] reads the body at most once, calls the
    signer at most once and the transport at most once: nothing is
    retried. *)
Theorem nothing_is_retried sg r w :
  (length (signCalls (trace (call sg r w).2)) <= 1)%nat
  /\ (length (forwarded (trace (call sg r w).2)) <= 1)%nat
  /\ (length (bodyReads (trace (call sg r w).2)) <= 1)%nat.
Proof.
  symex; cbn; lia.
Qed.

(** X3. Every call of the signer is made on the [v4] signer of the
    [Signer], with its service and its region. *)
Theorem sign_uses_configuration sg r w v rq body sv rg t e :
  EvSign v rq body sv rg t e ∈ trace (call sg r w).2 ->
  v = v4 sg /\ sv = service sg /\ rg = region sg.
Proof.
  symex; intros Hin; elem_cases Hin; by injection Hin as -> _ _ -> -> _ _.
Qed.

(** X4. [RoundTrip] returns a nil error only when it has called the
    transport and the transport returned a nil error; the response is then
    the transport's. *)
Theorem nil_error_only_from_transport sg r w resp :
  (call sg r w).1 = (resp, None) ->
  exists rq, EvRoundTrip (transport sg) rq resp None ∈ trace (call sg r w).2.
Proof.
  symex; intros Heq; simplify_eq; eexists; elem_find.
Qed.

(** X5. What the transport receives is the request as the signer left it:
    when a run has a call of the signer that returned no error, that call
    was made in some world [w0], and the one request the run forwards is
    the request that call gave back. *)
Theorem forwarded_is_signed_request sg r w v rq body sv rg t :
  EvSign v rq body sv rg t None ∈ trace (call sg r w).2 ->
  exists w0,
    (v4_Sign v rq body sv rg t w0).1.1 = None
    /\ forwarded (trace (call sg r w).2)
       = [(v4_Sign v rq body sv rg t w0).1.2].
Proof.
  symex; intros Hin; elem_cases Hin;
    injection Hin; intros; subst;
    match goal with
    | E : v4_Sign _ _ _ _ _ _ ?w0 = _ |- _ =>
        exists w0; cbn in E |- *; rewrite E; split; reflexivity
    end.
Qed.

(** X6. The request the signer is given is the caller's request with the
    scheme set to https, the raw path possibly escaped, the [Date] header
    set and, when there is a body, the body replaced: the method, the host,
    the path, the query and every other header are the caller's, and a
    request without a body still has none. *)
Theorem signer_sees_the_callers_request sg r w rq body t :
  (rq, body, t) ∈ signCalls (trace (call sg r w).2) ->
  Method rq = Method r
  /\ url.Scheme (URL rq) = "https"
  /\ url.Host (URL rq) = url.Host (URL r)
  /\ url.Path (URL rq) = url.Path (URL r)
  /\ url.RawQuery (URL rq) = url.RawQuery (URL r)
  /\ (forall k, k <> "Date" -> Header rq !! k = Header r !! k)
  /\ (Body r = None -> Body rq = None).
Proof.
  rewrite signCalls_run. intros Hin.
  assert (forall k, k <> "Date" ->
            http.Header_Set (Header r) "Date" (Format_RFC3339 t) !! k
            = Header r !! k) as Hframe
    by (intros k Hk; by apply lookup_insert_ne).
  unfold prepared, normalizeURL in Hin.
  repeat case_match; elem_cases Hin; simplify_eq; cbn;
    repeat split; try done.
Qed.

(** X7. On a request that is not signed already, every error [RoundTrip]
    returns has been handed to the logger of the [Signer] first. *)
Theorem returned_error_is_logged sg r w resp e :
  alreadySigned r = false ->
  (call sg r w).1 = (resp, Some e) ->
  exists format args,
    EvPrintf (logger sg) format args ∈ trace (call sg r w).2
    /\ ArgError e ∈ args.
Proof.
  intros Hunsigned.
  symex; intros Heq; simplify_eq;
    match goal with
    | |- context [EvPrintf ?l ?format [ArgError ?e]] =>
        exists format, [ArgError e]; split; [elem_find | elem_find]
    | |- context [EvPrintf ?l ?format [?a; ArgError ?e]] =>
        exists format, [a; ArgError e]; split; [elem_find | elem_find]
    end.
Qed.

(** X8. When the body of a request that is not signed already cannot be
    read, the caller's request has been written to all the same: it comes
    back with the URL normalised, the [Date] header set and the body as
    the failed read left it; the clock has been read once. *)
Theorem read_error_leaves_request_written sg r w b d e b' :
  alreadySigned r = false ->
  Body r = Some b ->
  ReadAll b = (d, Some e, b') ->
  req (call sg r w).2 = setBody (prepared' r (time_Now w).1) (Some b')
  /\ world (call sg r w).2 = (time_Now w).2.
Proof.
  intros Hunsigned Hbody Hread.
  symex; split; reflexivity.
Qed.

(** X9. A request that went through [RoundTrip] once is not signed a
    second time. When the signer, on success, leaves the request with an
    [Authorization] header that starts with "AWS4", and the transport
    leaves that header alone, then after a run in which the signer was
    called and returned no error, a further [RoundTrip] on the same
    request, by any [Signer], does not call the signer and forwards the
    request as it is. *)
Theorem resend_is_not_signed_again sg sg' r w w' :
  (forall v rq b sv rg t w0,
     (v4_Sign v rq b sv rg t w0).1.1 = None ->
     alreadySigned (v4_Sign v rq b sv rg t w0).1.2 = true) ->
  (forall rt rq w0,
     alreadySigned (transport_RoundTrip rt rq w0).1.2 = alreadySigned rq) ->
  (exists v rq b sv rg t, EvSign v rq b sv rg t None ∈ trace (call sg r w).2) ->
  signCalls (trace (call sg' (req (call sg r w).2) w').2) = []
  /\ forwarded (trace (call sg' (req (call sg r w).2) w').2)
     = [req (call sg r w).2].
Proof.
  intros Hsign Htransport (v & rq & b & sv & rg & t & Hin).
  apply run_alreadySigned. revert Hin.
  symex; intros Hin; elem_cases Hin;
    injection Hin; intros; subst;
    repeat match goal with
           | E : v4_Sign ?v ?rq ?b ?sv ?rg ?t ?w0 = _ |- _ =>
               let H := fresh in
               pose proof (Hsign v rq b sv rg t w0) as H;
               rewrite E in H; cbn in H; clear E
           | E : transport_RoundTrip ?rt ?rq ?w0 = _ |- _ =>
               let H := fresh in
               pose proof (Htransport rt rq w0) as H;
               rewrite E in H; cbn in H; clear E
           end;
    repeat match goal with
           | H : ?a = ?a -> _ |- _ => specialize (H eq_refl)
           end;
    congruence.
Qed.

End RoundTripFacts.

(** ** [RoundTrip] on the test doubles *)

(** C1 fails on a request with a body. The POST with body "hi" is handed to
    a signer that returns an error: [RoundTrip] logs a successful signing,
    hands the request to the transport and returns the transport's
    response with a nil error. *)
Lemma sign_error_with_body_is_forwarded :
  let out := Stub.runFail Stub.post 0%nat in
  (exists rq t,
     EvSign 7 rq (Some (bytes.NewReader ["h"; "i"]%byte)) "es" "us-east-1" t
            (Some Stub.signError) ∈ trace out.2)
  /\ out.1 = (Some Stub.ok200, None)
  /\ length (forwarded (trace out.2)) = 1%nat
  /\ EvPrintf DefaultLogger "Signing succesful. Latency: %d ms" [ArgInt 2]
       ∈ trace out.2.
Proof.
  cbv zeta. split; [|split; [|split]].
  - do 2 eexists. vm_compute. apply list_elem_of_In. cbn [In].
    do 6 right. left. reflexivity.
  - reflexivity.
  - reflexivity.
  - vm_compute. apply list_elem_of_In. cbn [In]. do 8 right. left. reflexivity.
Qed.

(** The same signer and transport on the GET without a body: the error is
    returned and nothing is forwarded. *)
Lemma sign_error_without_body_is_returned :
  let out := Stub.runFail Stub.get 0%nat in
  out.1 = (None, Some Stub.signError) /\ forwarded (trace out.2) = [].
Proof. split; reflexivity. Qed.

(** C3, as the specification states it, fails: for a request that is
    signed already the test of line 95 returns before line 100 sets the
    scheme, so a request with the scheme http still has it when
    [RoundTrip] returns. *)
Lemma presigned_keeps_scheme :
  let out := Stub.runOK Stub.presigned 0%nat in
  url.Scheme (URL (req out.2)) = "http"
  /\ url.Scheme (URL (req out.2)) <> "https".
Proof. split; [reflexivity | discriminate]. Qed.


(** ** [New] *)

(** C4. [New] tests the signer, then the service, then the region, and
    fails with the error of the first one that is missing, leaving the
    clients alone. With all three present it returns no error, for any
    client and logger; with a nil client and a nil logger it returns
    [http.DefaultClient], and the [Signer] it installs logs to the
    [DefaultLogger]. *)
Theorem New_validation v client service region cl h :
  service <> EmptyString ->
  region <> EmptyString ->
  (forall sv rg, New None client sv rg cl h = (None, Some MissingSignerError, h))
  /\ (forall rg,
        New (Some v) client EmptyString rg cl h
        = (None, Some MissingServiceError, h))
  /\ New (Some v) client service EmptyString cl h
     = (None, Some MissingRegionError, h)
  /\ (New (Some v) client service region cl h).1.2 = None
  /\ exists sg,
       New (Some v) None service region None h
       = (Some DefaultClient, None,
          <[DefaultClient := {| Transport := Some (SignerTransport sg) |}]> h)
       /\ logger sg = DefaultLogger
       /\ transport sg = Client_transport (h !!! DefaultClient).
Proof.
  intros Hservice%String.eqb_neq Hregion%String.eqb_neq.
  unfold New. cbn [String.eqb]. rewrite Hservice, Hregion.
  repeat split. eexists. repeat split.
Qed.

(** C10. Called with a nil client and valid arguments, [New] returns
    [http.DefaultClient] and stores a [Signer] in the [Transport] field of
    that shared client, wrapped around the transport the client used
    before; no other client changes. From then on the transport every
    request sent through [http.DefaultClient] goes to is that [Signer],
    and its [RoundTrip] is [Signer.RoundTrip]. *)
Theorem New_nil_client_rewires_DefaultClient {World : Type}
    (time_Now : World -> Time * World) (Format_RFC3339 : Time -> string)
    (v4_Sign : V4Signer -> Request -> option bytes.Reader -> string ->
               string -> Time -> World -> option error * Request * World)
    (net : RoundTripper -> Request -> World ->
           option Response * option error * Request * World)
    v service region cl h :
  service <> EmptyString ->
  region <> EmptyString ->
  exists sg h',
    New (Some v) None service region cl h = (Some DefaultClient, None, h')
    /\ h' !! DefaultClient = Some {| Transport := Some (SignerTransport sg) |}
    /\ transport sg = Client_transport (h !!! DefaultClient)
    /\ (forall p, p <> DefaultClient -> h' !! p = h !! p)
    /\ Client_transport (h' !!! DefaultClient) = SignerTransport sg
    /\ forall r w,
         RoundTripper_RoundTrip time_Now Format_RFC3339 v4_Sign net
           (Client_transport (h' !!! DefaultClient)) r w
         = (let '(res, st) :=
              run time_Now Format_RFC3339 v4_Sign
                  (RoundTripper_RoundTrip time_Now Format_RFC3339 v4_Sign net)
                  sg r w in
            (res, req st, world st)).
Proof.
  intros Hservice%String.eqb_neq Hregion%String.eqb_neq.
  unfold New. cbn [String.eqb]. rewrite Hservice, Hregion.
  do 2 eexists. split; [reflexivity|].
  split; [apply lookup_insert_eq|]. split; [reflexivity|].
  split; [intros p Hp; by apply lookup_insert_ne|].
  rewrite lookup_total_insert_eq. split; [reflexivity|].
  intros r w. reflexivity.
Qed.

(** ** The theorems at the test doubles *)

Lemma alreadySigned_forwards_unchanged_witness :
  Stub.runOK Stub.presigned 0%nat
  = (Some Stub.ok200, None,
     {| req := Stub.presigned; world := 0%nat;
        trace :=
          [EvPrintf DefaultLogger
             "Received request to sign that is already signed. Skipping." [];
           EvRoundTrip DefaultTransport Stub.presigned (Some Stub.ok200) None] |})
  /\ forwarded (trace (Stub.runOK Stub.presigned 0%nat).2) = [Stub.presigned]
  /\ signCalls (trace (Stub.runOK Stub.presigned 0%nat).2) = [].
Proof.
  apply (alreadySigned_forwards_unchanged
           Stub.time_Now Stub.Format_RFC3339 Stub.signOK Stub.echo
           Stub.signer Stub.presigned 0%nat
           "AWS4-HMAC-SHA256 Credential=OLD" []); reflexivity.
Defined.

Lemma unsigned_scheme_https_witness :
  url.Scheme (URL Stub.get) = "http"
  /\ url.Scheme (URL (req (Stub.runOK Stub.get 0%nat).2)) = "https".
Proof.
  split; [reflexivity|].
  apply (unsigned_scheme_https
           Stub.time_Now Stub.Format_RFC3339 Stub.signOK Stub.echo
           Stub.signer Stub.get 0%nat);
    [reflexivity | intros; reflexivity | intros; reflexivity].
Defined.


Lemma sign_body_argument_witness :
  (forall rq body t,
     (rq, body, t) ∈ signCalls (trace (Stub.runOK Stub.get 0%nat).2) ->
     body = None)
  /\ (forall rq body t,
        (rq, body, t) ∈ signCalls (trace (Stub.runOK Stub.post 0%nat).2) ->
        body = Some (bytes.NewReader ["h"; "i"]%byte))
  /\ length (signCalls (trace (Stub.runOK Stub.post 0%nat).2)) = 1%nat.
Proof.
  destruct (sign_body_argument
              Stub.time_Now Stub.Format_RFC3339 Stub.signOK Stub.echo
              Stub.signer Stub.get 0%nat) as [Hget _].
  destruct (sign_body_argument
              Stub.time_Now Stub.Format_RFC3339 Stub.signOK Stub.echo
              Stub.signer Stub.post 0%nat) as [Hpost Hlen].
  split; [exact Hget|]. split.
  - intros rq body t Hin.
    destruct (Hpost rq body t Hin) as (rd & Hbody & Hrd & _).
    rewrite Hbody, Hrd. reflexivity.
  - apply Hlen; [reflexivity|].
  intros b Hb. injection Hb as <-. reflexivity.
Defined.

Lemma read_error_aborts_witness :
  (Stub.runOK Stub.postBroken 0%nat).1 = (None, Some Stub.readError)
  /\ signCalls (trace (Stub.runOK Stub.postBroken 0%nat).2) = []
  /\ forwarded (trace (Stub.runOK Stub.postBroken 0%nat).2) = [].
Proof.
  apply (read_error_aborts
           Stub.time_Now Stub.Format_RFC3339 Stub.signOK Stub.echo
           Stub.signer Stub.postBroken 0%nat
           (Stream ["h"]%byte (Some Stub.readError)) ["h"]%byte Stub.readError).
  vm_compute. apply list_elem_of_In. cbn [In]. do 3 right. left. reflexivity.
Defined.

Lemma sign_time_is_date_witness :
  1700000000000000000 = (Stub.time_Now 0%nat).1
  /\ Header (prepared Stub.Format_RFC3339 Stub.get 1700000000000000000)
       !! "Date" = Some ["2023-11-14T22:13:20Z"]
  /\ EvNow 1700000000000000000 ∈ trace (Stub.runOK Stub.get 0%nat).2.
Proof.
  apply (sign_time_is_date
           Stub.time_Now Stub.Format_RFC3339 Stub.signOK Stub.echo
           Stub.signer Stub.get 0%nat
           (prepared Stub.Format_RFC3339 Stub.get 1700000000000000000)
           None 1700000000000000000).
  vm_compute. left.
Defined.

Lemma New_validation_witness :
  (forall sv rg, New None None sv rg None ∅ = (None, Some MissingSignerError, ∅))
  /\ (forall rg,
        New (Some 7%positive) None EmptyString rg None ∅
        = (None, Some MissingServiceError, ∅))
  /\ New (Some 7%positive) None "es" EmptyString None ∅
     = (None, Some MissingRegionError, ∅)
  /\ (New (Some 7%positive) None "es" "us-east-1" None ∅).1.2 = None
  /\ exists sg,
       New (Some 7%positive) None "es" "us-east-1" None ∅
       = (Some DefaultClient, None,
          <[DefaultClient := {| Transport := Some (SignerTransport sg) |}]> ∅)
       /\ logger sg = DefaultLogger
       /\ transport sg = Client_transport ((∅ : Heap) !!! DefaultClient).
Proof.
  apply (New_validation 7%positive None "es" "us-east-1" None ∅); discriminate.
Defined.

Lemma New_nil_client_rewires_DefaultClient_witness :
  exists sg h',
    New (Some 7%positive) None "es" "us-east-1" None ∅
    = (Some DefaultClient, None, h')
    /\ h' !! DefaultClient = Some {| Transport := Some (SignerTransport sg) |}
    /\ transport sg = Client_transport ((∅ : Heap) !!! DefaultClient)
    /\ (forall p, p <> DefaultClient -> h' !! p = (∅ : Heap) !! p)
    /\ Client_transport (h' !!! DefaultClient) = SignerTransport sg
    /\ forall r w,
         RoundTripper_RoundTrip Stub.time_Now Stub.Format_RFC3339 Stub.signOK
           Stub.echo (Client_transport (h' !!! DefaultClient)) r w
         = (let '(res, st) :=
              run Stub.time_Now Stub.Format_RFC3339 Stub.signOK
                  (RoundTripper_RoundTrip Stub.time_Now Stub.Format_RFC3339
                     Stub.signOK Stub.echo)
                  sg r w in
            (res, req st, world st)).
Proof.
  apply (New_nil_client_rewires_DefaultClient
           Stub.time_Now Stub.Format_RFC3339 Stub.signOK Stub.echo
           7%positive "es" "us-east-1" None ∅); discriminate.
Defined.

(** ** The raw path the signer sees *)

Section SignedPath.

Context {World : Type}.
Variable time_Now : World -> Time * World.
Variable Format_RFC3339 : Time -> string.
Variable v4_Sign :
  V4Signer -> Request -> option bytes.Reader -> string -> string -> Time ->
  World -> option error * Request * World.
Variable transport_RoundTrip :
  RoundTripper -> Request -> World ->
  option Response * option error * Request * World.

Local Abbreviation call :=
  (run time_Now Format_RFC3339 v4_Sign transport_RoundTrip).

Lemma bytesOf_append (p q : string) :
  bytesOf (p ++ q) = (bytesOf p ++ bytesOf q)%list.
Proof.
  unfold bytesOf. induction p as [|c p IH]; simpl; [done | by f_equal].
Qed.

Lemma pathByte_escapeByte c a :
  a ∈ bytesOf (rest.escapeByte c false) -> pathByte a = true.
Proof.
  assert (forallb pathByte (bytesOf (rest.escapeByte c false)) = true) as Hall
    by (destruct c as [[] [] [] [] [] [] [] []]; vm_compute; reflexivity).
  intros Hin%list_elem_of_In. revert a Hin. by apply forallb_forall.
Qed.

Lemma pathByte_EscapePath p a :
  a ∈ bytesOf (rest.EscapePath p false) -> pathByte a = true.
Proof.
  induction p as [|c p IH]; cbn [rest.EscapePath].
  - by intros ?%elem_of_nil.
  - rewrite bytesOf_append, elem_of_app.
    intros [Hin|Hin]; [by eapply pathByte_escapeByte | by apply IH].
Qed.

(** What one escaped byte is: the byte itself, which is not "%", or a "%"
    and two more bytes. *)
Lemma escapeByte_shape c b :
  (rest.escapeByte c b = String c EmptyString /\ c <> "%"%char)
  \/ (exists x y,
        rest.escapeByte c b = String "%" (String x (String y EmptyString))).
Proof.
  unfold rest.escapeByte.
  destruct (rest.noEscape c || Ascii.eqb c "/" && negb b) eqn:E.
  - left. split; [done|]. intros ->. by destruct b.
  - right. by do 2 eexists.
Qed.

Lemma percent02X_inj c c' :
  rest.percent02X c = rest.percent02X c' -> c = c'.
Proof.
  set (unhex := fun a : ascii =>
                  let n := N_of_ascii a in
                  (if n <? 58 then n - 48 else n - 55)%N).
  set (decode := fun p : string =>
                   match p with
                   | String _ (String x (String y _)) =>
                       ascii_of_N (16 * unhex x + unhex y)
                   | _ => zero
                   end).
  assert (forall a, decode (rest.percent02X a) = a) as Hdecode
    by (intros [[] [] [] [] [] [] [] []]; reflexivity).
  intros Heq. rewrite <- (Hdecode c), <- (Hdecode c'). by rewrite Heq.
Qed.

Lemma escapeByte_inj c c' b p p' :
  rest.escapeByte c b ++ p = rest.escapeByte c' b ++ p' -> c = c' /\ p = p'.
Proof.
  unfold rest.escapeByte.
  destruct (rest.noEscape c || Ascii.eqb c "/" && negb b) eqn:E,
           (rest.noEscape c' || Ascii.eqb c' "/" && negb b) eqn:E'; simpl.
  - intros [= -> Hp]. split; [done | exact Hp].
  - intros [= -> _]. by destruct b.
  - intros [= <- _]. by destruct b.
  - intros [= Hx Hy Hp]. split; [|exact Hp].
    apply percent02X_inj. unfold rest.percent02X. by rewrite Hx, Hy.
Qed.

Lemma EscapePath_inj b p q :
  rest.EscapePath p b = rest.EscapePath q b -> p = q.
Proof.
  revert q. induction p as [|c p IH]; intros [|c' q]; cbn [rest.EscapePath].
  - done.
  - destruct (escapeByte_shape c' b) as [[-> _]|(x & y & ->)]; discriminate.
  - destruct (escapeByte_shape c b) as [[-> _]|(x & y & ->)]; discriminate.
  - intros [-> Heq]%escapeByte_inj. f_equal. by apply IH.
Qed.

(** X10. When the raw path of the caller's request contains "%2C", the
    raw path the signer sees is its [EscapePath]: it is made only of
    letters, digits, "-", ".", "_", "~", "/" and "%", it is at least two
    bytes longer than the caller's, and so never the caller's raw path
    itself. *)
Theorem signed_path_is_escaped sg r w rq body t :
  (rq, body, t) ∈ signCalls (trace (call sg r w).2) ->
  strings.Contains (url.RawPath (URL r)) "%2C" = true ->
  url.RawPath (URL rq) = rest.EscapePath (url.RawPath (URL r)) false
  /\ (forall a, a ∈ bytesOf (url.RawPath (URL rq)) -> pathByte a = true)
  /\ (String.length (url.RawPath (URL r)) + 2
      <= String.length (url.RawPath (URL rq)))%nat.
Proof.
  intros Hin Hesc. apply signed_request_url in Hin.
  assert (url.RawPath (URL rq) = rest.EscapePath (url.RawPath (URL r)) false)
    as Hpath.
  { rewrite Hin. unfold normalizeURL. cbn [url.setScheme url.RawPath].
    by rewrite Hesc. }
  rewrite Hpath. split; [done|]. split.
  - intros a. apply pathByte_EscapePath.
  - pose proof (length_EscapePath_ge (url.RawPath (URL r))) as Hlen.
    apply Contains_CountByte_percent in Hesc. lia.
Qed.

(** X11. The raw path the signer sees contains "%2C" exactly when the
    caller's raw path contains both "%2C" and a literal comma: an escaped
    comma alone never reaches the signer as "%2C". *)
Theorem signed_path_has_escaped_comma sg r w rq body t :
  (rq, body, t) ∈ signCalls (trace (call sg r w).2) ->
  strings.Contains (url.RawPath (URL rq)) "%2C"
  = strings.Contains (url.RawPath (URL r)) "%2C"
    && strings.Contains (url.RawPath (URL r)) ",".
Proof.
  intros ->%signed_request_url.
  unfold normalizeURL. cbn [url.setScheme url.RawPath].
  destruct (strings.Contains (url.RawPath (URL r)) "%2C") eqn:Hesc; cbn.
  - apply Contains_EscapePath.
  - done.
Qed.

(** X12. Escaping merges some raw paths and only those: two requests
    reach the signer with the same raw path exactly when their raw paths
    were the same, or when one of them contains "%2C", the other does not,
    and the other is the [EscapePath] of the one. So /%2Cfoo and /%252Cfoo
    are signed as the same raw path, while two different raw paths that
    both contain "%2C", or that both lack it, stay different. *)
Theorem signed_paths_merge_iff sg sg' r r' w w' rq rq' body body' t t' :
  (rq, body, t) ∈ signCalls (trace (call sg r w).2) ->
  (rq', body', t') ∈ signCalls (trace (call sg' r' w').2) ->
  url.RawPath (URL rq) = url.RawPath (URL rq')
  <-> url.RawPath (URL r) = url.RawPath (URL r')
      \/ (strings.Contains (url.RawPath (URL r)) "%2C" = true
          /\ strings.Contains (url.RawPath (URL r')) "%2C" = false
          /\ url.RawPath (URL r')
             = rest.EscapePath (url.RawPath (URL r)) false)
      \/ (strings.Contains (url.RawPath (URL r')) "%2C" = true
          /\ strings.Contains (url.RawPath (URL r)) "%2C" = false
          /\ url.RawPath (URL r)
             = rest.EscapePath (url.RawPath (URL r')) false).
Proof.
  intros ->%signed_request_url ->%signed_request_url.
  unfold normalizeURL. cbn [url.setScheme url.RawPath].
  destruct (strings.Contains (url.RawPath (URL r)) "%2C") eqn:Hesc,
           (strings.Contains (url.RawPath (URL r')) "%2C") eqn:Hesc';
    cbn [url.setRawPath url.setScheme url.RawPath]; split.
  - intros Heq%EscapePath_inj. by left.
  - intros [->|[(_ & [=] & _)|(_ & [=] & _)]]. done.
  - intros <-. right. by left.
  - intros [Heq|[(_ & _ & ->)|([=] & _)]]; [|done].
    rewrite Heq, Hesc' in Hesc. discriminate.
  - intros ->. right. by right.
  - intros [Heq|[([=] & _)|(_ & _ & ->)]]; [|done].
    rewrite Heq, Hesc' in Hesc. discriminate.
  - intros ->. by left.
  - intros [->|[([=] & _)|([=] & _)]]. done.
Qed.

End SignedPath.

(** ** [New] on a client of the caller, and called twice *)

(** X13. Given a client, [New] returns that same client and writes only
    its [Transport] field: it now holds a [Signer] with the signer, the
    service and the region of the call, the logger of the call (the
    [DefaultLogger] for a nil one), and, as inner transport, the transport
    the client sent through before ([http.DefaultTransport] when its field
    was nil). Every other client is as it was. *)
Theorem New_wraps_given_client v p sv rg cl h :
  sv <> EmptyString ->
  rg <> EmptyString ->
  exists sg h',
    New (Some v) (Some p) sv rg cl h = (Some p, None, h')
    /\ h' !! p = Some {| Transport := Some (SignerTransport sg) |}
    /\ (forall q, q <> p -> h' !! q = h !! q)
    /\ transport sg = Client_transport (h !!! p)
    /\ v4 sg = v /\ service sg = sv /\ region sg = rg
    /\ logger sg = default DefaultLogger cl.
Proof.
  intros Hservice%String.eqb_neq Hregion%String.eqb_neq.
  unfold New. cbn [String.eqb]. rewrite Hservice, Hregion.
  do 2 eexists. split; [reflexivity|].
  split; [apply lookup_insert_eq|].
  split; [intros q Hq; by apply lookup_insert_ne|].
  by destruct cl.
Qed.

(** X14. Two calls of [New] on the same client (or both with a nil client)
    return the same client and stack two [Signer]s on it: requests sent
    through the client go to the [Signer] of the second call, whose inner
    transport is the [Signer] of the first call, whose inner transport is
    the transport the client had at the start. *)
Theorem New_twice_stacks v1 v2 client sv1 rg1 sv2 rg2 cl1 cl2 h :
  sv1 <> EmptyString -> rg1 <> EmptyString ->
  sv2 <> EmptyString -> rg2 <> EmptyString ->
  exists c h1 h2 inner outer,
    New (Some v1) client sv1 rg1 cl1 h = (Some c, None, h1)
    /\ New (Some v2) client sv2 rg2 cl2 h1 = (Some c, None, h2)
    /\ Client_transport (h2 !!! c) = SignerTransport outer
    /\ transport outer = SignerTransport inner
    /\ transport inner = Client_transport (h !!! c)
    /\ (v4 outer, service outer, region outer) = (v2, sv2, rg2)
    /\ (v4 inner, service inner, region inner) = (v1, sv1, rg1)
    /\ innermost (Client_transport (h2 !!! c))
       = innermost (Client_transport (h !!! c)).
Proof.
  intros Hsv1%String.eqb_neq Hrg1%String.eqb_neq
         Hsv2%String.eqb_neq Hrg2%String.eqb_neq.
  unfold New. cbn [String.eqb]. rewrite Hsv1, Hrg1, Hsv2, Hrg2.
  do 5 eexists. split; [reflexivity|]. split; [reflexivity|].
  rewrite !lookup_total_insert_eq. cbn [Transport Client_transport].
  repeat split.
Qed.

(** ** Stacked [Signer]s *)

(** X15. A stack of [Signer]s is transparent for a request that is signed
    already: sending it through any transport gives exactly what the
    transport at the bottom of the stack gives for the same request, in
    result, request and world. *)
Theorem signed_request_passes_through {World : Type}
    (time_Now : World -> Time * World) (Format_RFC3339 : Time -> string)
    (v4_Sign : V4Signer -> Request -> option bytes.Reader -> string ->
               string -> Time -> World -> option error * Request * World)
    (net : RoundTripper -> Request -> World ->
           option Response * option error * Request * World)
    (rt : RoundTripper) (r : Request) (w : World) :
  alreadySigned r = true ->
  RoundTripper_RoundTrip time_Now Format_RFC3339 v4_Sign net rt r w
  = net (innermost rt) r w.
Proof.
  intros Hsigned. revert rt. fix IH 1. intros [|id|[t v sv rg l]].
  - reflexivity.
  - reflexivity.
  - cbn [RoundTripper_RoundTrip innermost innermostOf].
    cbv [run RoundTrip forward Printf emit getReq mbind mret M_bind M_ret].
    cbn [req world trace transport]. rewrite Hsigned.
    cbn [req world trace transport]. rewrite (IH t).
    by destruct (net (innermost t) r w) as [[[resp err] r'] w'].
Qed.

(** ** The latency that is logged *)

(** X16. The latency [int64(end.Sub(start) / time.Millisecond)] of a span
    that does not run backwards and fits a [time.Duration] is the whole
    number of milliseconds in it: it is not negative and is the span in
    nanoseconds divided by 1000000, rounded down. A span too long for a
    [time.Duration] gives the largest duration, 9223372036854 ms. *)
Theorem latencyMs_whole_milliseconds (start fin : Time) :
  start <= fin ->
  0 <= latencyMs start fin <= 9223372036854
  /\ (fin - start <= time.maxDuration ->
      latencyMs start fin * 1000000 <= fin - start
                                    < (latencyMs start fin + 1) * 1000000)
  /\ (time.maxDuration <= fin - start -> latencyMs start fin = 9223372036854).
Proof.
  intros Hle. unfold latencyMs, time.Sub, time.Millisecond,
    time.minDuration, time.maxDuration.
  change (2 ^ 63) with 9223372036854775808.
  match goal with |- context [Z.quot ?x _] => set (d := x) end.
  assert (0 <= d <= 9223372036854775807) as Hd by (subst d; lia).
  rewrite Z.quot_div_nonneg by lia.
  split; [|split].
  - split; [apply Z.div_pos; lia|].
    enough (d / 1000000 < 9223372036855) by lia.
    apply Z.div_lt_upper_bound; lia.
  - intros Hfit. assert (d = fin - start) as -> by (subst d; lia).
    pose proof (Z.mul_div_le (fin - start) 1000000 ltac:(lia)).
    pose proof (Z.mul_succ_div_gt (fin - start) 1000000 ltac:(lia)).
    lia.
  - intros Hbig. assert (d = 9223372036854775807) as -> by (subst d; lia).
    reflexivity.
Qed.

(** ** The further theorems at the test doubles *)

Lemma transport_result_verbatim_witness :
  DefaultTransport = transport Stub.signer
  /\ (Stub.runOK Stub.get 0%nat).1 = (Some Stub.ok200, None).
Proof.
  eapply (transport_result_verbatim
            Stub.time_Now Stub.Format_RFC3339 Stub.signOK Stub.echo
            Stub.signer Stub.get 0%nat DefaultTransport _
            (Some Stub.ok200) None).
  apply list_elem_of_In. vm_compute.
  repeat (first [left; reflexivity | right]).
Defined.

Lemma sign_uses_configuration_witness :
  7%positive = v4 Stub.signer
  /\ "es" = service Stub.signer
  /\ "us-east-1" = region Stub.signer.
Proof.
  eapply (sign_uses_configuration
            Stub.time_Now Stub.Format_RFC3339 Stub.signFail Stub.echo
            Stub.signer Stub.post 0%nat 7%positive _ _ "es" "us-east-1" _
            (Some Stub.signError)).
  apply list_elem_of_In. vm_compute.
  repeat (first [left; reflexivity | right]).
Defined.

Lemma nil_error_only_from_transport_witness :
  exists rq,
    EvRoundTrip DefaultTransport rq (Some Stub.ok200) None
      ∈ trace (Stub.runOK Stub.get 0%nat).2.
Proof.
  apply (nil_error_only_from_transport
           Stub.time_Now Stub.Format_RFC3339 Stub.signOK Stub.echo
           Stub.signer Stub.get 0%nat (Some Stub.ok200)).
  reflexivity.
Defined.

Lemma forwarded_is_signed_request_witness :
  exists w0 : nat,
    (Stub.signOK 7
       (prepared Stub.Format_RFC3339 Stub.get 1700000000000000000) None
       "es" "us-east-1" 1700000000000000000 w0).1.1 = None
    /\ forwarded (trace (Stub.runOK Stub.get 0%nat).2)
       = [(Stub.signOK 7
             (prepared Stub.Format_RFC3339 Stub.get 1700000000000000000) None
             "es" "us-east-1" 1700000000000000000 w0).1.2].
Proof.
  apply (forwarded_is_signed_request
           Stub.time_Now Stub.Format_RFC3339 Stub.signOK Stub.echo
           Stub.signer Stub.get 0%nat).
  apply list_elem_of_In. vm_compute.
  repeat (first [left; reflexivity | right]).
Defined.

Lemma signer_sees_the_callers_request_witness :
  let rq := prepared Stub.Format_RFC3339 Stub.get 1700000000000000000 in
  Method rq = Method Stub.get
  /\ url.Scheme (URL rq) = "https"
  /\ url.Host (URL rq) = url.Host (URL Stub.get)
  /\ url.Path (URL rq) = url.Path (URL Stub.get)
  /\ url.RawQuery (URL rq) = url.RawQuery (URL Stub.get)
  /\ (forall k, k <> "Date" -> Header rq !! k = Header Stub.get !! k)
  /\ (Body Stub.get = None -> Body rq = None).
Proof.
  apply (signer_sees_the_callers_request
           Stub.time_Now Stub.Format_RFC3339 Stub.signOK Stub.echo
           Stub.signer Stub.get 0%nat
           (prepared Stub.Format_RFC3339 Stub.get 1700000000000000000)
           None 1700000000000000000).
  vm_compute. left.
Defined.

Lemma returned_error_is_logged_witness :
  exists format args,
    EvPrintf DefaultLogger format args
      ∈ trace (Stub.runOK Stub.postBroken 0%nat).2
    /\ ArgError Stub.readError ∈ args.
Proof.
  apply (returned_error_is_logged
           Stub.time_Now Stub.Format_RFC3339 Stub.signOK Stub.echo
           Stub.signer Stub.postBroken 0%nat None Stub.readError);
    reflexivity.
Defined.

Lemma read_error_leaves_request_written_witness :
  req (Stub.runOK Stub.postBroken 0%nat).2
  = setBody (prepared Stub.Format_RFC3339 Stub.postBroken
               (Stub.time_Now 0%nat).1)
            (Some (Stream [] (Some Stub.readError)))
  /\ world (Stub.runOK Stub.postBroken 0%nat).2 = (Stub.time_Now 0%nat).2.
Proof.
  apply (read_error_leaves_request_written
           Stub.time_Now Stub.Format_RFC3339 Stub.signOK Stub.echo
           Stub.signer Stub.postBroken 0%nat
           (Stream ["h"]%byte (Some Stub.readError)) ["h"]%byte
           Stub.readError); reflexivity.
Defined.

Lemma resend_is_not_signed_again_witness :
  signCalls
    (trace (Stub.runOK (req (Stub.runOK Stub.get 0%nat).2) 5%nat).2) = []
  /\ forwarded
       (trace (Stub.runOK (req (Stub.runOK Stub.get 0%nat).2) 5%nat).2)
     = [req (Stub.runOK Stub.get 0%nat).2].
Proof.
  apply (resend_is_not_signed_again
           Stub.time_Now Stub.Format_RFC3339 Stub.signOK Stub.echo
           Stub.signer Stub.signer Stub.get 0%nat 5%nat).
  - intros v rq b sv rg t w0 _.
    unfold alreadySigned, Stub.signOK, http.Header_Set. cbn.
    rewrite lookup_insert_eq. reflexivity.
  - intros; reflexivity.
  - do 6 eexists. apply list_elem_of_In. vm_compute.
    repeat (first [left; reflexivity | right]).
Defined.

Lemma signed_path_is_escaped_witness :
  let rq := prepared Stub.Format_RFC3339 Stub.get 1700000000000000000 in
  url.RawPath (URL rq) = rest.EscapePath (url.RawPath (URL Stub.get)) false
  /\ (forall a, a ∈ bytesOf (url.RawPath (URL rq)) -> pathByte a = true)
  /\ (String.length (url.RawPath (URL Stub.get)) + 2
      <= String.length (url.RawPath (URL rq)))%nat.
Proof.
  apply (signed_path_is_escaped
           Stub.time_Now Stub.Format_RFC3339 Stub.signOK Stub.echo
           Stub.signer Stub.get 0%nat
           (prepared Stub.Format_RFC3339 Stub.get 1700000000000000000)
           None 1700000000000000000).
  - vm_compute. left.
  - reflexivity.
Defined.

Lemma signed_path_has_escaped_comma_witness :
  strings.Contains
    (url.RawPath
       (URL (prepared Stub.Format_RFC3339 Stub.get 1700000000000000000)))
    "%2C"
  = strings.Contains (url.RawPath (URL Stub.get)) "%2C"
    && strings.Contains (url.RawPath (URL Stub.get)) ",".
Proof.
  apply (signed_path_has_escaped_comma
           Stub.time_Now Stub.Format_RFC3339 Stub.signOK Stub.echo
           Stub.signer Stub.get 0%nat
           (prepared Stub.Format_RFC3339 Stub.get 1700000000000000000)
           None 1700000000000000000).
  vm_compute. left.
Defined.

Lemma signed_paths_merge_iff_witness :
  url.RawPath (URL Stub.get) = "/%2Cfoo"
  /\ url.RawPath (URL getEscapedTwice) = "/%252Cfoo"
  /\ url.RawPath
       (URL (prepared Stub.Format_RFC3339 Stub.get 1700000000000000000))
     = url.RawPath
         (URL (prepared Stub.Format_RFC3339 getEscapedTwice
                        1700000000007500000)).
Proof.
  split; [reflexivity|]. split; [reflexivity|].
  apply (signed_paths_merge_iff
           Stub.time_Now Stub.Format_RFC3339 Stub.signOK Stub.echo
           Stub.signer Stub.signer Stub.get getEscapedTwice 0%nat 3%nat
           (prepared Stub.Format_RFC3339 Stub.get 1700000000000000000)
           (prepared Stub.Format_RFC3339 getEscapedTwice 1700000000007500000)
           None None 1700000000000000000 1700000000007500000).
  - vm_compute. left.
  - vm_compute. left.
  - right. left. split; [reflexivity|]. split; reflexivity.
Defined.

Lemma New_wraps_given_client_witness :
  exists sg h',
    New (Some 7%positive) (Some 2%positive) "es" "us-east-1" None
        {[ 2%positive := {| Transport := Some (OtherTransport 9) |} ]}
    = (Some 2%positive, None, h')
    /\ h' !! 2%positive = Some {| Transport := Some (SignerTransport sg) |}
    /\ (forall q, q <> 2%positive ->
        h' !! q
        = ({[ 2%positive := {| Transport := Some (OtherTransport 9) |} ]}
             : Heap) !! q)
    /\ transport sg
       = Client_transport
           (({[ 2%positive := {| Transport := Some (OtherTransport 9) |} ]}
               : Heap) !!! 2%positive)
    /\ v4 sg = 7%positive /\ service sg = "es" /\ region sg = "us-east-1"
    /\ logger sg = default DefaultLogger None.
Proof.
  apply (New_wraps_given_client 7%positive 2%positive "es" "us-east-1" None
           {[ 2%positive := {| Transport := Some (OtherTransport 9) |} ]});
    discriminate.
Defined.

Lemma New_twice_stacks_witness :
  exists c h1 h2 inner outer,
    New (Some 7%positive) None "es" "us-east-1" None ∅ = (Some c, None, h1)
    /\ New (Some 8%positive) None "s3" "eu-west-1" None h1 = (Some c, None, h2)
    /\ Client_transport (h2 !!! c) = SignerTransport outer
    /\ transport outer = SignerTransport inner
    /\ transport inner = Client_transport ((∅ : Heap) !!! c)
    /\ (v4 outer, service outer, region outer)
       = (8%positive, "s3", "eu-west-1")
    /\ (v4 inner, service inner, region inner)
       = (7%positive, "es", "us-east-1")
    /\ innermost (Client_transport (h2 !!! c))
       = innermost (Client_transport ((∅ : Heap) !!! c)).
Proof.
  apply (New_twice_stacks 7%positive 8%positive None
           "es" "us-east-1" "s3" "eu-west-1" None None ∅); discriminate.
Defined.

Lemma signed_request_passes_through_witness :
  RoundTripper_RoundTrip Stub.time_Now Stub.Format_RFC3339 Stub.signOK
    Stub.echo
    (SignerTransport
       (mkSigner (SignerTransport Stub.signer) 8 "s3" "eu-west-1"
                 DefaultLogger))
    Stub.presigned 0%nat
  = Stub.echo DefaultTransport Stub.presigned 0%nat.
Proof.
  apply (signed_request_passes_through
           Stub.time_Now Stub.Format_RFC3339 Stub.signOK Stub.echo
           (SignerTransport
              (mkSigner (SignerTransport Stub.signer) 8 "s3" "eu-west-1"
                        DefaultLogger))
           Stub.presigned 0%nat).
  reflexivity.
Defined.

Lemma latencyMs_whole_milliseconds_witness :
  0 <= latencyMs 1700000000002500000 1700000000005000000 <= 9223372036854
  /\ (1700000000005000000 - 1700000000002500000 <= time.maxDuration ->
      latencyMs 1700000000002500000 1700000000005000000 * 1000000
      <= 1700000000005000000 - 1700000000002500000
      < (latencyMs 1700000000002500000 1700000000005000000 + 1) * 1000000)
  /\ (time.maxDuration <= 1700000000005000000 - 1700000000002500000 ->
      latencyMs 1700000000002500000 1700000000005000000 = 9223372036854).
Proof.
  apply (latencyMs_whole_milliseconds 1700000000002500000 1700000000005000000).
  lia.
Defined.
